(** * Background scan submission and status polling (src/main/client/scan.c)

    A shallow embedding of [AerospikeClient_ScanApply_Invoke],
    [AerospikeClient_ScanApply] and [AerospikeClient_ScanInfo].

    The C functions thread an [as_error] record through a sequence of calls
    to collaborators (policy.c, conversions.c, the C client library, the
    CPython API) and leave through the [CLEANUP] label.  The embedding keeps
    that shape: the local variables of a call are a record, every statement
    is a function on that record, [goto CLEANUP] is the [Goto_CLEANUP]
    outcome of a step, and every call that leaves the function is logged as
    an [event], so that orderings ("validated before converted"), absences
    ("the store is never contacted") and counts ("destroyed exactly once")
    are statements about the log. *)

From stdpp Require Import gmap strings list sorting.
From Stdlib Require Import ZArith Lia Ascii.

Set Warnings "-register-all".
Local Open Scope Z_scope.

(** ** C integers *)

Module CInt.

(** Two's complement reading of the low [w] bits of [z]. *)
Definition wrap_signed (w z : Z) : Z :=
  (z + 2 ^ (w - 1)) mod 2 ^ w - 2 ^ (w - 1).

Definition wrap_unsigned (w z : Z) : Z := z mod 2 ^ w.

(** [unsigned int] is 32 bits wide, [long] 64 bits (LP64). *)
Definition to_uint : Z -> Z := wrap_unsigned 32.
Definition to_long : Z -> Z := wrap_signed 64.
Definition to_uint64 : Z -> Z := wrap_unsigned 64.

(** [a + b] with [a] an [unsigned int]: the other operand is converted to
    [unsigned int] and the sum is taken modulo 2^32. *)
Definition uint_add (a b : Z) : Z := to_uint (a + b).


End CInt.

(** ** Python objects *)

Inductive PyObject : Type :=
| Py_None
| PyLong (v : Z)
| PyFloat (bits : Z)
| PyUnicode (s : string)
| PyTuple (items : list PyObject)
| PyList (items : list PyObject)
| PyDict (entries : gmap string PyObject).

(** [PyList_Check]: the object is a list (a tuple, a mapping or a scalar is
    not). *)
Definition PyList_Check (o : PyObject) : bool :=
  match o with
  | PyList _ => true
  | _ => false
  end.

(** The objects Python calls ordered sequences of values: lists and
    tuples.  Only used in statements. *)
Definition is_sequence (o : PyObject) : bool :=
  match o with
  | PyList _ | PyTuple _ => true
  | _ => false
  end.

(** [PyLong_FromLong] receives a C [long]; the caller converts. *)
Definition PyLong_FromLong (l : Z) : PyObject := PyLong l.

(** [PyDict_SetItemString (d, key, v)]. *)
Definition PyDict_SetItemString
    (d : gmap string PyObject) (key : string) (v : PyObject)
  : gmap string PyObject :=
  <[key := v]> d.

Definition PROGRESS_PCT : string := "progress_pct".
Definition RECORDS_SCANNED : string := "records_scanned".
Definition STATUS : string := "status".

(** ** The error record *)

(** [as_status]: the two codes scan.c names, and every other code a
    collaborator may report. *)
Inductive as_status : Type :=
| AEROSPIKE_OK
| AEROSPIKE_ERR_PARAM
| AEROSPIKE_ERR_CODE (n : Z).

Definition is_ok (c : as_status) : bool :=
  match c with
  | AEROSPIKE_OK => true
  | _ => false
  end.

Record as_error : Type := { code : as_status; message : string }.

Definition as_error_init : as_error :=
  {| code := AEROSPIKE_OK; message := EmptyString |}.

Definition as_error_update (e : as_error) (c : as_status) (m : string)
  : as_error :=
  {| code := c; message := m |}.

(** ** Client library data *)

Inductive as_val : Type :=
| as_integer (v : Z)
| as_string (s : string)
| as_nil.

#[global] Instance as_val_eq_dec : EqDecision as_val.
Proof. solve_decision. Defined.

Abbreviation as_list := (list as_val).

Record as_policy_scan : Type :=
  { scan_timeout : Z; fail_on_cluster_change : bool }.

Record as_policy_info : Type :=
  { info_timeout : Z; send_as_is : bool; check_bounds : bool }.

(** The settings [set_scan_options] writes into the descriptor. *)
Record scan_options : Type :=
  { priority : Z; percent : Z; concurrent : bool; nobins : bool }.

Record as_udf_call : Type :=
  { udf_module : string; udf_function : string; udf_arglist : option as_list }.

(** The scan descriptor. *)
Record as_scan : Type :=
  { ns : string;
    set : string;
    options : scan_options;
    apply_each : option as_udf_call }.

Record as_scan_info : Type :=
  { progress_pct : Z;        (* uint32_t *)
    records_scanned : Z;     (* uint32_t *)
    status : Z }.            (* enum as_scan_status: no negative
                                enumerator, an unsigned int *)


Record aerospike : Type := { cluster_id : Z }.

(** [AerospikeClient]: the Python object; its [as] field may be NULL. *)
Record AerospikeClient : Type := { as_ : option aerospike }.

(** [!self || !self->as] is false exactly when this returns a handle. *)
Definition client_handle (self : option AerospikeClient) : option aerospike :=
  match self with
  | Some c => as_ c
  | None => None
  end.

Definition default_scan_options : scan_options :=
  {| priority := 0; percent := 100; concurrent := false; nobins := false |}.

(** Modelled from the spec: [as_scan_init] of the client library is not
    part of the sources; the spec has it "initialize an empty descriptor
    bound to (namespace, set)". *)
Definition as_scan_init (namespace_p set_p : string) : as_scan :=
  {| ns := namespace_p; set := set_p;
     options := default_scan_options; apply_each := None |}.

Definition with_options (o : scan_options) (s : as_scan) : as_scan :=
  {| ns := ns s; set := set s; options := o; apply_each := apply_each s |}.

(** Modelled from the spec: [as_scan_apply_each] of the client library is
    not part of the sources; the spec has it attach module, function and
    argument list to the descriptor as an "apply-each-record" directive,
    or fail structurally and attach nothing.  Whether it accepts is the
    library's decision ([accepts]). *)
Definition as_scan_apply_each
    (accepts : bool) (s : as_scan) (module_p function_p : string)
    (arglist : option as_list) : bool * as_scan :=
  if accepts then
    (true,
     {| ns := ns s; set := set s; options := options s;
        apply_each := Some {| udf_module := module_p;
                              udf_function := function_p;
                              udf_arglist := arglist |} |})
  else (false, s).

(** The argument list a descriptor owns, if any. *)
Definition attached_arglist (s : as_scan) : option as_list :=
  match apply_each s with
  | Some c => udf_arglist c
  | None => None
  end.

(** ** The log of calls *)

Inductive event : Type :=
| Ev_PyArg_ParseTupleAndKeywords (parsed : bool)
| Ev_PyDict_New (allocated : bool)
| Ev_as_error_update (e : as_error)
| Ev_as_scan_init (namespace_p set_p : string)
| Ev_validate_policy_scan (py_policy : PyObject) (e : as_error)
| Ev_pyobject_to_policy_scan (py_policy : PyObject) (e : as_error)
| Ev_pyobject_to_policy_info (py_policy : option PyObject) (e : as_error)
| Ev_set_scan_options (py_options : PyObject) (e : as_error)
| Ev_pyobject_to_list (py_args : PyObject) (e : as_error)
    (arglist : option as_list)
| Ev_as_scan_apply_each (module_p function_p : string)
    (arglist : option as_list) (attached : bool)
| Ev_aerospike_scan_background (policy : option as_policy_scan)
    (scan : as_scan) (e : as_error) (scan_id : Z)
| Ev_aerospike_scan_info (policy : option as_policy_info) (scan_id : Z)
    (e : as_error) (info : as_scan_info)
| Ev_as_list_destroy (l : as_list)
| Ev_as_scan_destroy (scan : as_scan)
| Ev_error_to_pyobject (e : as_error)
| Ev_PyErr_SetObject (py_err : PyObject).

(** Calls that reach the store over the network. *)
Definition is_network (ev : event) : bool :=
  match ev with
  | Ev_aerospike_scan_background _ _ _ _ => true
  | Ev_aerospike_scan_info _ _ _ _ => true
  | _ => false
  end.

(** What the [CLEANUP] label and the error report call. *)
Definition is_cleanup_step (ev : event) : bool :=
  match ev with
  | Ev_as_list_destroy _
  | Ev_as_scan_destroy _
  | Ev_error_to_pyobject _
  | Ev_PyErr_SetObject _ => true
  | _ => false
  end.

Definition is_conversion (ev : event) : bool :=
  match ev with
  | Ev_pyobject_to_list _ _ _ => true
  | _ => false
  end.

(** The value a call leaves in the error record, for the calls that write
    it. *)
Definition err_written (ev : event) : option as_error :=
  match ev with
  | Ev_as_error_update e
  | Ev_validate_policy_scan _ e
  | Ev_pyobject_to_policy_scan _ e
  | Ev_pyobject_to_policy_info _ e
  | Ev_set_scan_options _ e
  | Ev_pyobject_to_list _ e _
  | Ev_aerospike_scan_background _ _ e _
  | Ev_aerospike_scan_info _ _ e _ => Some e
  | _ => None
  end.


(** The policy events of a log, in order: [(true, p)] for a validation of
    [p], [(false, p)] for a conversion of [p]. *)
Definition policy_event (ev : event) : option (bool * option PyObject) :=
  match ev with
  | Ev_validate_policy_scan p _ => Some (true, Some p)
  | Ev_pyobject_to_policy_scan p _ => Some (false, Some p)
  | Ev_pyobject_to_policy_info p _ => Some (false, p)
  | _ => None
  end.

Definition policy_events (t : list event) : list (bool * option PyObject) :=
  omap policy_event t.

(** Releases of the descriptor and of an argument list. *)
Definition releases_scan (ev : event) : bool :=
  match ev with
  | Ev_as_scan_destroy _ => true
  | _ => false
  end.

Definition initialises_scan (ev : event) : bool :=
  match ev with
  | Ev_as_scan_init _ _ => true
  | _ => false
  end.

Definition destroys_list_directly (l : as_list) (ev : event) : bool :=
  match ev with
  | Ev_as_list_destroy l' => bool_decide (l' = l)
  | _ => false
  end.

(** Modelled from the spec: [as_scan_destroy] of the client library is not
    part of the sources; the spec has the descriptor own the argument list
    once it is attached and release all its sub-allocations when it is
    destroyed. *)
Definition destroys_list_via_scan (l : as_list) (ev : event) : bool :=
  match ev with
  | Ev_as_scan_destroy s => bool_decide (attached_arglist s = Some l)
  | _ => false
  end.

Fixpoint count (p : event -> bool) (t : list event) : nat :=
  match t with
  | [] => 0%nat
  | ev :: rest => ((if p ev then 1 else 0) + count p rest)%nat
  end.

(** A successful attach of the argument list to the descriptor. *)
Definition attaches (ev : event) : bool :=
  match ev with
  | Ev_as_scan_apply_each _ _ _ true => true
  | _ => false
  end.






(** ** Collaborators

    Everything scan.c calls and does not define: the argument parser and
    the dictionary allocator of CPython, the policy and value converters of
    policy.c and conversions.c, and the store primitives of the client
    library.  A collaborator that receives [&err] is a function of the
    record it finds to the record it leaves. *)

Record scan_apply_args : Type :=
  { arg_ns : string;
    arg_set : string;
    arg_module : string;
    arg_function : string;
    arg_args : PyObject;
    arg_policy : option PyObject;
    arg_options : option PyObject }.

Record world : Type :=
  { (* "ssssO|OO:scan_apply" and "l|O:scan_info" *)
    parse_scan_apply : PyObject -> option PyObject -> option scan_apply_args;
    parse_scan_info : PyObject -> option PyObject -> option (Z * option PyObject);
    (* whether [PyDict_New] returns a dictionary in this call *)
    PyDict_New_allocates : bool;
    validate_policy_scan : as_error -> PyObject -> as_error;
    pyobject_to_policy_scan :
      as_error -> PyObject -> as_error * option as_policy_scan;
    pyobject_to_policy_info :
      as_error -> option PyObject -> as_error * option as_policy_info;
    set_scan_options :
      as_error -> scan_options -> PyObject -> as_error * scan_options;
    pyobject_to_list : as_error -> PyObject -> as_error * option as_list;
    error_to_pyobject : as_error -> PyObject;
    apply_each_accepts :
      as_scan -> string -> string -> option as_list -> bool;
    (* both return [err->code], as every [as_status] call of the library *)
    aerospike_scan_background :
      aerospike -> as_error -> option as_policy_scan -> as_scan -> Z ->
      as_error * Z;
    aerospike_scan_info :
      aerospike -> as_error -> option as_policy_info -> Z ->
      as_error * as_scan_info;
    (* contents of the automatic variables before they are written *)
    uninit_scan : as_scan;
    uninit_scan_info : as_scan_info }.

(** [PyDict_New ()]: a fresh empty dictionary, or NULL.  scan.c looks at
    the pointer only; the error the allocator sets when it returns NULL is
    accounted for by [alloc_error]. *)
Definition PyDict_New (w : world) : option (gmap string PyObject) :=
  if PyDict_New_allocates w then Some ∅ else None.

(** ** Control flow to the [CLEANUP] label

    A statement either falls through or jumps to [CLEANUP], carrying the
    locals of the call. *)

Inductive flow (L : Type) : Type :=
| Next (st : L)
| Goto_CLEANUP (st : L).

Arguments Next {L} st.
Arguments Goto_CLEANUP {L} st.

Definition and_then {L : Type} (f : flow L) (k : L -> flow L) : flow L :=
  match f with
  | Next st => k st
  | Goto_CLEANUP st => Goto_CLEANUP st
  end.

Definition at_CLEANUP {L : Type} (f : flow L) : L :=
  match f with
  | Next st => st
  | Goto_CLEANUP st => st
  end.

Notation "f >> k" := (and_then f k) (at level 61, left associativity).

(** ** [AerospikeClient_ScanApply_Invoke] and [AerospikeClient_ScanApply] *)

Module ScanApply.

Record locals : Type :=
  { arglist : option as_list;
    scan_policy_p : option as_policy_scan;
    err : as_error;
    scan : as_scan;
    scan_id : Z;                 (* uint64_t *)
    is_scan_init : bool;
    trace : list event }.

Definition emit (ev : event) (st : locals) : locals :=
  {| arglist := arglist st; scan_policy_p := scan_policy_p st;
     err := err st; scan := scan st; scan_id := scan_id st;
     is_scan_init := is_scan_init st; trace := trace st ++ [ev] |}.

Definition set_arglist (l : option as_list) (st : locals) : locals :=
  {| arglist := l; scan_policy_p := scan_policy_p st;
     err := err st; scan := scan st; scan_id := scan_id st;
     is_scan_init := is_scan_init st; trace := trace st |}.

Definition set_scan_policy_p (p : option as_policy_scan) (st : locals)
  : locals :=
  {| arglist := arglist st; scan_policy_p := p;
     err := err st; scan := scan st; scan_id := scan_id st;
     is_scan_init := is_scan_init st; trace := trace st |}.

Definition set_err (e : as_error) (st : locals) : locals :=
  {| arglist := arglist st; scan_policy_p := scan_policy_p st;
     err := e; scan := scan st; scan_id := scan_id st;
     is_scan_init := is_scan_init st; trace := trace st |}.

Definition set_scan (s : as_scan) (st : locals) : locals :=
  {| arglist := arglist st; scan_policy_p := scan_policy_p st;
     err := err st; scan := s; scan_id := scan_id st;
     is_scan_init := is_scan_init st; trace := trace st |}.

Definition set_scan_id (id : Z) (st : locals) : locals :=
  {| arglist := arglist st; scan_policy_p := scan_policy_p st;
     err := err st; scan := scan st; scan_id := id;
     is_scan_init := is_scan_init st; trace := trace st |}.

Definition set_is_scan_init (b : bool) (st : locals) : locals :=
  {| arglist := arglist st; scan_policy_p := scan_policy_p st;
     err := err st; scan := scan st; scan_id := scan_id st;
     is_scan_init := b; trace := trace st |}.

Section Invoke.
Context (w : world).

(** Lines 57-66. *)
Definition entry : locals :=
  {| arglist := None; scan_policy_p := None; err := as_error_init;
     scan := uninit_scan w; scan_id := 0; is_scan_init := false;
     trace := [] |}.

(** [as_error_update (&err, code, msg)]. *)
Definition error_update (c : as_status) (m : string) (st : locals)
  : locals :=
  let e := as_error_update (err st) c m in
  emit (Ev_as_error_update e) (set_err e st).

(** [if (err.code != AEROSPIKE_OK) goto CLEANUP;] *)
Definition check_err (st : locals) : flow locals :=
  if is_ok (code (err st)) then Next st else Goto_CLEANUP st.

(** Lines 83-84. *)
Definition do_scan_init (namespace_p set_p : string) (st : locals)
  : locals :=
  set_is_scan_init true
    (emit (Ev_as_scan_init namespace_p set_p)
       (set_scan (as_scan_init namespace_p set_p) st)).

Definition do_validate_policy (p : PyObject) (st : locals) : locals :=
  let e := validate_policy_scan w (err st) p in
  emit (Ev_validate_policy_scan p e) (set_err e st).

Definition do_convert_policy (p : PyObject) (st : locals) : locals :=
  let '(e, pol) := pyobject_to_policy_scan w (err st) p in
  emit (Ev_pyobject_to_policy_scan p e)
    (set_scan_policy_p pol (set_err e st)).

(** Lines 86-98. *)
Definition policy_step (py_policy : option PyObject) (st : locals)
  : flow locals :=
  match py_policy with
  | Some p =>
      check_err (do_validate_policy p st) >>
      (fun st => check_err (do_convert_policy p st))
  | None => Next st
  end.

Definition do_set_scan_options (o : PyObject) (st : locals) : locals :=
  let '(e, opts) := set_scan_options w (err st) (options (scan st)) o in
  emit (Ev_set_scan_options o e)
    (set_scan (with_options opts (scan st)) (set_err e st)).

(** Lines 100-106. *)
Definition options_step (py_options : option PyObject) (st : locals)
  : flow locals :=
  check_err
    match py_options with
    | Some o => do_set_scan_options o st
    | None => st
    end.

(** Lines 108-111. *)
Definition list_step (py_args : PyObject) (st : locals) : flow locals :=
  let '(e, l) := pyobject_to_list w (err st) py_args in
  check_err
    (emit (Ev_pyobject_to_list py_args e l)
       (set_arglist l (set_err e st))).

(** Lines 113-116. *)
Definition apply_each_step (module_p function_p : string) (st : locals)
  : flow locals :=
  let accepts :=
    apply_each_accepts w (scan st) module_p function_p (arglist st) in
  let '(ok, s) :=
    as_scan_apply_each accepts (scan st) module_p function_p
      (arglist st) in
  let st :=
    emit (Ev_as_scan_apply_each module_p function_p (arglist st) ok)
      (set_scan s st) in
  if ok then Next st
  else
    Goto_CLEANUP
      (error_update AEROSPIKE_ERR_PARAM
         "Unable to apply UDF on the scan" st).

(** Lines 118-119. *)
Definition background_step (as_h : aerospike) (st : locals) : flow locals :=
  let '(e, id) :=
    aerospike_scan_background w as_h (err st) (scan_policy_p st)
      (scan st) (scan_id st) in
  Next
    (set_arglist None
       (emit
          (Ev_aerospike_scan_background (scan_policy_p st) (scan st) e id)
          (set_scan_id id (set_err e st)))).

(** Lines 57-119: the locals as control reaches [CLEANUP]. *)
Definition body
    (self : option AerospikeClient)
    (namespace_p set_p module_p function_p : option string)
    (py_args : PyObject) (py_policy py_options : option PyObject)
  : locals :=
  match client_handle self with
  | None =>
      error_update AEROSPIKE_ERR_PARAM "Invalid aerospike object" entry
  | Some as_h =>
      match namespace_p, set_p, module_p, function_p with
      | Some namespace_s, Some set_s, Some module_s, Some function_s =>
          if negb (PyList_Check py_args) then
            error_update AEROSPIKE_ERR_PARAM
              "Arguments should be a list" entry
          else
            at_CLEANUP
              (Next (do_scan_init namespace_s set_s entry) >>
               policy_step py_policy >>
               options_step py_options >>
               list_step py_args >>
               apply_each_step module_s function_s >>
               background_step as_h)
      | _, _, _, _ =>
          error_update AEROSPIKE_ERR_PARAM
            "Parameter should not be null" entry
      end
  end.

(** Lines 123-129. *)
Definition release (st : locals) : locals :=
  let st :=
    match arglist st with
    | Some l => emit (Ev_as_list_destroy l) st
    | None => st
    end in
  if is_scan_init st then emit (Ev_as_scan_destroy (scan st)) st else st.

(** Lines 121-139: the value returned (None is NULL) and the log. *)
Definition CLEANUP (st : locals) : option PyObject * list event :=
  let st := release st in
  if negb (is_ok (code (err st))) then
    let py_err := error_to_pyobject w (err st) in
    (None,
     trace st ++ [Ev_error_to_pyobject (err st); Ev_PyErr_SetObject py_err])
  else
    (Some (PyLong_FromLong (CInt.to_long (scan_id st))), trace st).

Definition AerospikeClient_ScanApply_Invoke
    (self : option AerospikeClient)
    (namespace_p set_p module_p function_p : option string)
    (py_args : PyObject) (py_policy py_options : option PyObject)
  : option PyObject * list event :=
  CLEANUP
    (body self namespace_p set_p module_p function_p
       py_args py_policy py_options).

(** Lines 154-174. *)
Definition AerospikeClient_ScanApply
    (self : option AerospikeClient)
    (args : PyObject) (kwds : option PyObject)
  : option PyObject * list event :=
  match parse_scan_apply w args kwds with
  | None => (None, [Ev_PyArg_ParseTupleAndKeywords false])
  | Some a =>
      let '(r, t) :=
        AerospikeClient_ScanApply_Invoke self
          (Some (arg_ns a)) (Some (arg_set a))
          (Some (arg_module a)) (Some (arg_function a))
          (arg_args a) (arg_policy a) (arg_options a) in
      (r, Ev_PyArg_ParseTupleAndKeywords true :: t)
  end.

End Invoke.

End ScanApply.

(** ** [AerospikeClient_ScanInfo] *)

Module ScanInfo.

Record locals : Type :=
  { err : as_error;
    retObj : option (gmap string PyObject);
    info_policy_p : option as_policy_info;
    scan_info : as_scan_info;
    trace : list event }.

Definition emit (ev : event) (st : locals) : locals :=
  {| err := err st; retObj := retObj st;
     info_policy_p := info_policy_p st; scan_info := scan_info st;
     trace := trace st ++ [ev] |}.

Definition set_err (e : as_error) (st : locals) : locals :=
  {| err := e; retObj := retObj st;
     info_policy_p := info_policy_p st; scan_info := scan_info st;
     trace := trace st |}.

Definition set_retObj (d : option (gmap string PyObject)) (st : locals)
  : locals :=
  {| err := err st; retObj := d;
     info_policy_p := info_policy_p st; scan_info := scan_info st;
     trace := trace st |}.

Definition set_info_policy_p (p : option as_policy_info) (st : locals)
  : locals :=
  {| err := err st; retObj := retObj st;
     info_policy_p := p; scan_info := scan_info st;
     trace := trace st |}.

Definition set_scan_info (i : as_scan_info) (st : locals) : locals :=
  {| err := err st; retObj := retObj st;
     info_policy_p := info_policy_p st; scan_info := i;
     trace := trace st |}.

Section Info.
(** [AS_SCAN_STATUS] comes from a header that is not part of the
    sources. *)
Context (AS_SCAN_STATUS : Z) (w : world).

(** Lines 192-203: the error record is initialised and the result
    dictionary allocated before the arguments are parsed. *)
Definition entry : locals :=
  {| err := as_error_init;
     retObj := PyDict_New w;
     info_policy_p := None;
     scan_info := uninit_scan_info w;
     trace := [Ev_PyDict_New (PyDict_New_allocates w)] |}.

Definition error_update (c : as_status) (m : string) (st : locals)
  : locals :=
  let e := as_error_update (err st) c m in
  emit (Ev_as_error_update e) (set_err e st).

Definition check_err (st : locals) : flow locals :=
  if is_ok (code (err st)) then Next st else Goto_CLEANUP st.

Definition do_validate_policy (p : PyObject) (st : locals) : locals :=
  let e := validate_policy_scan w (err st) p in
  emit (Ev_validate_policy_scan p e) (set_err e st).

(** Lines 218-223. *)
Definition validate_step (py_policy : option PyObject) (st : locals)
  : flow locals :=
  check_err
    match py_policy with
    | Some p => do_validate_policy p st
    | None => st
    end.

(** Lines 225-228: the converter runs whether or not a policy was
    passed. *)
Definition convert_step (py_policy : option PyObject) (st : locals)
  : flow locals :=
  let '(e, pol) := pyobject_to_policy_info w (err st) py_policy in
  check_err
    (emit (Ev_pyobject_to_policy_info py_policy e)
       (set_info_policy_p pol (set_err e st))).

(** Lines 230-233; [lscanId] is a [long] passed as [uint64_t], and the
    status tested is the [err->code] the call returns. *)
Definition query_step (as_h : aerospike) (lscanId : Z) (st : locals)
  : flow locals :=
  let id := CInt.to_uint64 lscanId in
  let '(e, i) :=
    aerospike_scan_info w as_h (err st) (info_policy_p st) id in
  check_err
    (emit (Ev_aerospike_scan_info (info_policy_p st) id e i)
       (set_scan_info i (set_err e st))).

(** Lines 235-247.  The two counters are [uint32_t] and the status an
    [unsigned int]; each is converted to the [long] that [PyLong_FromLong]
    takes, the status after [AS_SCAN_STATUS] has been added to it in
    [unsigned int]. *)
Definition fill (i : as_scan_info) (d : gmap string PyObject)
  : gmap string PyObject :=
  let d :=
    PyDict_SetItemString d PROGRESS_PCT
      (PyLong_FromLong (CInt.to_long (progress_pct i))) in
  let d :=
    PyDict_SetItemString d RECORDS_SCANNED
      (PyLong_FromLong (CInt.to_long (records_scanned i))) in
  PyDict_SetItemString d STATUS
    (PyLong_FromLong
       (CInt.to_long (CInt.uint_add (status i) AS_SCAN_STATUS))).

Definition fill_step (st : locals) : flow locals :=
  Next
    match retObj st with
    | Some d => set_retObj (Some (fill (scan_info st) d)) st
    | None => st
    end.

(** Lines 213-247: the locals as control reaches [CLEANUP]. *)
Definition body
    (self : option AerospikeClient) (lscanId : Z)
    (py_policy : option PyObject) (st : locals) : locals :=
  match client_handle self with
  | None =>
      error_update AEROSPIKE_ERR_PARAM "Invalid aerospike object" st
  | Some as_h =>
      at_CLEANUP
        (validate_step py_policy st >>
         convert_step py_policy >>
         query_step as_h lscanId >>
         fill_step)
  end.

(** Lines 249-259. *)
Definition CLEANUP (st : locals) : option PyObject * list event :=
  if negb (is_ok (code (err st))) then
    let py_err := error_to_pyobject w (err st) in
    (None,
     trace st ++ [Ev_error_to_pyobject (err st); Ev_PyErr_SetObject py_err])
  else
    (PyDict <$> retObj st, trace st).

(** Lines 189-261. *)
Definition AerospikeClient_ScanInfo
    (self : option AerospikeClient)
    (args : PyObject) (kwds : option PyObject)
  : option PyObject * list event :=
  match parse_scan_info w args kwds with
  | None =>
      (None, trace (emit (Ev_PyArg_ParseTupleAndKeywords false) entry))
  | Some (lscanId, py_policy) =>
      CLEANUP
        (body self lscanId py_policy
           (emit (Ev_PyArg_ParseTupleAndKeywords true) entry))
  end.

End Info.

End ScanInfo.

(** ** Reading a log *)

(** The error records handed to the error reporter, in order. *)
Definition reported_error (ev : event) : option as_error :=
  match ev with
  | Ev_error_to_pyobject e => Some e
  | _ => None
  end.

Definition reported_errors (t : list event) : list as_error :=
  omap reported_error t.

(** First failure wins: after the first call that leaves a failing code in
    the error record, only cleanup and the one report of that very record
    follow. *)
Fixpoint first_failure_wins (t : list event) : Prop :=
  match t with
  | [] => True
  | ev :: rest =>
      match err_written ev with
      | Some e =>
          if is_ok (code e) then first_failure_wins rest
          else
            Forall (fun ev' => is_cleanup_step ev' = true) rest /\
            reported_errors rest = [e]
      | None => first_failure_wins rest
      end
  end.

(** A log that ends with the report of [e] through the error reporter. *)
Definition ends_with_report (w : world) (e : as_error) (t : list event)
  : Prop :=
  exists t0,
    t = t0 ++ [Ev_error_to_pyobject e;
               Ev_PyErr_SetObject (error_to_pyobject w e)].


(** Messages are compared up to letter case where the specification quotes
    them in lower case. *)
Definition lower_ascii (c : ascii) : ascii :=
  let n := nat_of_ascii c in
  if ((65 <=? n) && (n <=? 90))%nat then ascii_of_nat (n + 32) else c.

Fixpoint lowercase (s : string) : string :=
  match s with
  | EmptyString => EmptyString
  | String c s' => String (lower_ascii c) (lowercase s')
  end.

(** The precondition of the specification's ordered list that a call
    violates first, if any: handle, then names, then argument list. *)
Definition first_violation
    (self : option AerospikeClient)
    (namespace_p set_p module_p function_p : option string)
    (py_args : PyObject) : option string :=
  if bool_decide (client_handle self = None) then
    Some "Invalid aerospike object"
  else if bool_decide (namespace_p = None \/ set_p = None \/
                       module_p = None \/ function_p = None) then
    Some "Parameter should not be null"
  else if negb (PyList_Check py_args) then
    Some "Arguments should be a list"
  else None.

(** ** A fake store

    The recording fake of the specification's test scenarios: it issues
    [issued_id] for every submission and answers every status query with
    [snapshot]. *)

Definition fake_code (c : as_status) : Z :=
  match c with
  | AEROSPIKE_OK => 0
  | AEROSPIKE_ERR_PARAM => -2
  | AEROSPIKE_ERR_CODE n => n
  end.

Definition fake_val (o : PyObject) : option as_val :=
  match o with
  | Py_None => Some as_nil
  | PyLong v => Some (as_integer v)
  | PyUnicode s => Some (as_string s)
  | _ => None
  end.

Definition fake_parse_scan_apply (args : PyObject) (kwds : option PyObject)
  : option scan_apply_args :=
  match args with
  | PyTuple [PyUnicode n; PyUnicode s; PyUnicode m; PyUnicode f; a] =>
      Some {| arg_ns := n; arg_set := s; arg_module := m; arg_function := f;
              arg_args := a; arg_policy := None; arg_options := None |}
  | PyTuple [PyUnicode n; PyUnicode s; PyUnicode m; PyUnicode f; a; p] =>
      Some {| arg_ns := n; arg_set := s; arg_module := m; arg_function := f;
              arg_args := a; arg_policy := Some p; arg_options := None |}
  | _ => None
  end.

Definition fake_parse_scan_info (args : PyObject) (kwds : option PyObject)
  : option (Z * option PyObject) :=
  match args with
  | PyTuple [PyLong id] => Some (id, None)
  | PyTuple [PyLong id; p] => Some (id, Some p)
  | _ => None
  end.

Definition fake_validate (e : as_error) (p : PyObject) : as_error :=
  match p with
  | PyDict _ => e
  | _ => as_error_update e AEROSPIKE_ERR_PARAM "policy must be a dict"
  end.

Definition fake_to_list (e : as_error) (a : PyObject)
  : as_error * option as_list :=
  match a with
  | PyList items =>
      match mapM fake_val items with
      | Some l => (as_error_init, Some l)
      | None =>
          (as_error_update e AEROSPIKE_ERR_PARAM "value is not supported",
           None)
      end
  | _ => (as_error_update e AEROSPIKE_ERR_PARAM "not a list", None)
  end.

Definition fake_store
    (issued_id : Z) (snapshot : as_scan_info) (dict_allocates : bool)
  : world :=
  {| parse_scan_apply := fake_parse_scan_apply;
     parse_scan_info := fake_parse_scan_info;
     PyDict_New_allocates := dict_allocates;
     validate_policy_scan := fake_validate;
     pyobject_to_policy_scan := fun e p =>
       (e, Some {| scan_timeout := 1000; fail_on_cluster_change := false |});
     pyobject_to_policy_info := fun e p =>
       (e,
        match p with
        | Some _ =>
            Some {| info_timeout := 1000; send_as_is := true;
                    check_bounds := true |}
        | None => None
        end);
     set_scan_options := fun e so o => (e, so);
     pyobject_to_list := fake_to_list;
     error_to_pyobject := fun e =>
       PyTuple [PyLong (fake_code (code e)); PyUnicode (message e)];
     apply_each_accepts := fun _ _ _ _ => true;
     aerospike_scan_background := fun _ e _ _ _ => (e, issued_id);
     aerospike_scan_info := fun _ e _ _ => (e, snapshot);
     uninit_scan := as_scan_init EmptyString EmptyString;
     uninit_scan_info :=
       {| progress_pct := 0; records_scanned := 0; status := 0 |} |}.

Definition fake_snapshot : as_scan_info :=
  {| progress_pct := 55; records_scanned := 1000; status := 1 |}.

Definition fake_client : option AerospikeClient :=
  Some {| as_ := Some {| cluster_id := 1 |} |}.

(** Calls against the fake. *)


Definition submission_with_empty_namespace : option PyObject * list event :=
  ScanApply.AerospikeClient_ScanApply_Invoke
    (fake_store 42 fake_snapshot true) fake_client
    (Some EmptyString) (Some "demo") (Some "mod") (Some "fn") (PyList []) None None.

Definition submission_without_client : option PyObject * list event :=
  ScanApply.AerospikeClient_ScanApply_Invoke
    (fake_store 42 fake_snapshot true) None
    (Some "test") (Some "demo") (Some "mod") (Some "fn") (PyDict ∅)
    None None.




(** ** The specification, sentence by sentence

    Predicates that follow the wording of the specification, to be compared
    with what the embedded functions do. *)




(** The call failed with an [InvalidParam] record whose message reads
    [msg], letter case aside. *)
Definition rejected_with (msg : string) (run : option PyObject * list event)
  : Prop :=
  run.1 = None /\
  exists e,
    reported_errors run.2 = [e] /\
    code e = AEROSPIKE_ERR_PARAM /\
    lowercase (message e) = lowercase msg.

Definition empty_or_absent (s : option string) : Prop :=
  s = None \/ s = Some EmptyString.


(** "For all invocations where any of namespace/set/module/function is
    empty or absent, scanApply fails with InvalidParam and performs no
    network interaction." *)
Definition stated_names_checked : Prop :=
  forall w self namespace_p set_p module_p function_p
         py_args py_policy py_options,
    empty_or_absent namespace_p \/ empty_or_absent set_p \/
    empty_or_absent module_p \/ empty_or_absent function_p ->
    let run :=
      ScanApply.AerospikeClient_ScanApply_Invoke w self
        namespace_p set_p module_p function_p py_args py_policy py_options in
    rejected_with "parameter should not be null" run /\
    existsb is_network run.2 = false.

(** "For all invocations where args is not a sequence, scanApply fails
    with InvalidParam (arguments should be a list) before any conversion
    step runs." *)
Definition stated_args_checked : Prop :=
  forall w self namespace_p set_p module_p function_p
         py_args py_policy py_options,
    is_sequence py_args = false ->
    let run :=
      ScanApply.AerospikeClient_ScanApply_Invoke w self
        namespace_p set_p module_p function_p py_args py_policy py_options in
    rejected_with "arguments should be a list" run /\
    existsb is_conversion run.2 = false.










(** Validate, then convert: the policy events of a call are a prefix of
    "validate p, convert p"; a failed validation is the last policy event,
    is the error reported, and keeps the call away from the store; the
    store is reached only after both. *)
Definition validated_then_converted
    (p : PyObject) (run : option PyObject * list event) : Prop :=
  policy_events run.2 `prefix_of` [(true, Some p); (false, Some p)] /\
  (forall e,
     Ev_validate_policy_scan p e ∈ run.2 -> is_ok (code e) = false ->
     run.1 = None /\
     policy_events run.2 = [(true, Some p)] /\
     reported_errors run.2 = [e] /\
     existsb is_network run.2 = false) /\
  (existsb is_network run.2 = true ->
   policy_events run.2 = [(true, Some p); (false, Some p)]).

(** The validator of this world decides: its verdict on [p], reached with
    the error record as [as_error_init] left it, is in the log; a failing
    verdict is the error of the call, reported once, with the converter not
    run and the store not contacted; after a passing verdict the converter
    runs ([convert], leaving [c]), and a failure of the converter ends the
    call the same way. *)
Definition validator_decides
    (w : world) (p : PyObject) (convert : event) (c : as_error)
    (run : option PyObject * list event) : Prop :=
  let v := validate_policy_scan w as_error_init p in
  Ev_validate_policy_scan p v ∈ run.2 /\
  (is_ok (code v) = false ->
   run.1 = None /\
   reported_errors run.2 = [v] /\
   policy_events run.2 = [(true, Some p)] /\
   existsb is_network run.2 = false) /\
  (is_ok (code v) = true ->
   convert ∈ run.2 /\
   (is_ok (code c) = false ->
    run.1 = None /\
    reported_errors run.2 = [c] /\
    existsb is_network run.2 = false)).

(** Two worlds answer a status query alike: same parsed arguments, same
    allocation outcome, same verdicts on the policy, same answer of the
    store for this job identifier, same rendering of errors. *)
Definition same_answers
    (w1 w2 : world) (args : PyObject) (kwds : option PyObject) : Prop :=
  parse_scan_info w1 args kwds = parse_scan_info w2 args kwds /\
  PyDict_New_allocates w1 = PyDict_New_allocates w2 /\
  (forall e p, validate_policy_scan w1 e p = validate_policy_scan w2 e p) /\
  (forall e p, pyobject_to_policy_info w1 e p = pyobject_to_policy_info w2 e p) /\
  (forall e, error_to_pyobject w1 e = error_to_pyobject w2 e) /\
  (forall lscanId py_policy,
     parse_scan_info w1 args kwds = Some (lscanId, py_policy) ->
     forall a e pol,
       aerospike_scan_info w1 a e pol (CInt.to_uint64 lscanId) =
       aerospike_scan_info w2 a e pol (CInt.to_uint64 lscanId)).

(** ** Program order

    The place of each call in the text of the two functions.  A log whose
    places increase strictly makes every call at most once, in the order
    of the source. *)

Definition submission_place (ev : event) : nat :=
  match ev with
  | Ev_PyArg_ParseTupleAndKeywords _ => 0
  | Ev_as_scan_init _ _ => 1
  | Ev_validate_policy_scan _ _ => 2
  | Ev_pyobject_to_policy_scan _ _ => 3
  | Ev_set_scan_options _ _ => 4
  | Ev_pyobject_to_list _ _ _ => 5
  | Ev_as_scan_apply_each _ _ _ _ => 6
  | Ev_aerospike_scan_background _ _ _ _ => 7
  | Ev_as_error_update _ => 8
  | Ev_as_list_destroy _ => 9
  | Ev_as_scan_destroy _ => 10
  | Ev_error_to_pyobject _ => 11
  | Ev_PyErr_SetObject _ => 12
  | Ev_PyDict_New _
  | Ev_pyobject_to_policy_info _ _
  | Ev_aerospike_scan_info _ _ _ _ => 13
  end.

Definition status_place (ev : event) : nat :=
  match ev with
  | Ev_PyDict_New _ => 0
  | Ev_PyArg_ParseTupleAndKeywords _ => 1
  | Ev_validate_policy_scan _ _ => 2
  | Ev_pyobject_to_policy_info _ _ => 3
  | Ev_aerospike_scan_info _ _ _ _ => 4
  | Ev_as_error_update _ => 5
  | Ev_error_to_pyobject _ => 6
  | Ev_PyErr_SetObject _ => 7
  | Ev_as_scan_init _ _
  | Ev_pyobject_to_policy_scan _ _
  | Ev_set_scan_options _ _
  | Ev_pyobject_to_list _ _ _
  | Ev_as_scan_apply_each _ _ _ _
  | Ev_aerospike_scan_background _ _ _ _
  | Ev_as_list_destroy _
  | Ev_as_scan_destroy _ => 8
  end.


(** Two worlds with the same collaborators; the contents of the automatic
    variables before they are written may differ. *)
Definition same_collaborators (w1 w2 : world) : Prop :=
  validate_policy_scan w1 = validate_policy_scan w2 /\
  pyobject_to_policy_scan w1 = pyobject_to_policy_scan w2 /\
  set_scan_options w1 = set_scan_options w2 /\
  pyobject_to_list w1 = pyobject_to_list w2 /\
  error_to_pyobject w1 = error_to_pyobject w2 /\
  apply_each_accepts w1 = apply_each_accepts w2 /\
  aerospike_scan_background w1 = aerospike_scan_background w2.

(** The fake with a client library that refuses the directive. *)
Definition fake_store_refusing : world :=
  let w := fake_store 42 fake_snapshot true in
  {| parse_scan_apply := parse_scan_apply w;
     parse_scan_info := parse_scan_info w;
     PyDict_New_allocates := PyDict_New_allocates w;
     validate_policy_scan := validate_policy_scan w;
     pyobject_to_policy_scan := pyobject_to_policy_scan w;
     pyobject_to_policy_info := pyobject_to_policy_info w;
     set_scan_options := set_scan_options w;
     pyobject_to_list := pyobject_to_list w;
     error_to_pyobject := error_to_pyobject w;
     apply_each_accepts := fun _ _ _ _ => false;
     aerospike_scan_background := aerospike_scan_background w;
     aerospike_scan_info := aerospike_scan_info w;
     uninit_scan := uninit_scan w;
     uninit_scan_info := uninit_scan_info w |}.

(** The fake with other contents in the uninitialised descriptor. *)
Definition fake_store_with_garbage (g : as_scan) : world :=
  let w := fake_store 42 fake_snapshot true in
  {| parse_scan_apply := parse_scan_apply w;
     parse_scan_info := parse_scan_info w;
     PyDict_New_allocates := PyDict_New_allocates w;
     validate_policy_scan := validate_policy_scan w;
     pyobject_to_policy_scan := pyobject_to_policy_scan w;
     pyobject_to_policy_info := pyobject_to_policy_info w;
     set_scan_options := set_scan_options w;
     pyobject_to_list := pyobject_to_list w;
     error_to_pyobject := error_to_pyobject w;
     apply_each_accepts := apply_each_accepts w;
     aerospike_scan_background := aerospike_scan_background w;
     aerospike_scan_info := aerospike_scan_info w;
     uninit_scan := g;
     uninit_scan_info := uninit_scan_info w |}.

(** * Properties *)

(** ** Proof support *)





(** Walking the paths of a call: the function is evaluated up to the next
    test on a collaborator's answer, the answer is split into its cases,
    and evaluation resumes.  The property being proved is set aside
    meanwhile ([focus_on]), so that only the tests of the function are
    split, in program order. *)

Ltac eval_scan_apply :=
  lazy beta iota zeta delta
    [ScanApply.CLEANUP ScanApply.release ScanApply.body
     ScanApply.policy_step ScanApply.options_step ScanApply.list_step
     ScanApply.apply_each_step ScanApply.background_step
     ScanApply.check_err ScanApply.do_validate_policy
     ScanApply.do_convert_policy ScanApply.do_set_scan_options
     ScanApply.do_scan_init ScanApply.error_update ScanApply.entry
     ScanApply.emit ScanApply.set_arglist ScanApply.set_scan_policy_p
     ScanApply.set_err ScanApply.set_scan ScanApply.set_scan_id
     ScanApply.set_is_scan_init ScanApply.arglist ScanApply.scan_policy_p
     ScanApply.err ScanApply.scan ScanApply.scan_id ScanApply.is_scan_init
     ScanApply.trace and_then at_CLEANUP as_scan_apply_each as_scan_init
     with_options as_error_update as_error_init app];
  cbn [negb is_ok code ns set options apply_each].

Ltac eval_scan_info :=
  lazy beta iota zeta delta
    [ScanInfo.CLEANUP ScanInfo.body ScanInfo.validate_step
     ScanInfo.convert_step ScanInfo.query_step ScanInfo.fill_step
     ScanInfo.check_err ScanInfo.do_validate_policy ScanInfo.error_update
     ScanInfo.entry ScanInfo.emit ScanInfo.set_err ScanInfo.set_retObj
     ScanInfo.set_info_policy_p ScanInfo.set_scan_info ScanInfo.err
     ScanInfo.retObj ScanInfo.info_policy_p ScanInfo.scan_info
     ScanInfo.trace and_then at_CLEANUP as_error_update as_error_init app
     PyDict_New fmap option_fmap option_map];
  cbn [negb is_ok code].

Ltac use_codes :=
  repeat match goal with
         | H : is_ok _ = _ |- _ => progress rewrite H
         | H : PyDict_New_allocates _ = _ |- _ => progress rewrite H
         | H : client_handle _ = _ |- _ => progress rewrite H
         | H : _ = (_, _) |- _ => progress rewrite H
         end.

Ltac innermost x :=
  lazymatch x with
  | context [match ?y with _ => _ end] => innermost y
  | negb ?y => innermost y
  | _ => destruct x eqn:?
  end.

Ltac split_head :=
  lazymatch goal with
  | |- _ ?run =>
      lazymatch run with
      | context [match ?x with _ => _ end] => innermost x
      end
  end.

Ltac walk ev := ev; repeat (first [progress use_codes | split_head]; ev).

Ltac focus_on t :=
  pattern t;
  let Q := fresh "Q" in
  lazymatch goal with |- ?P _ => set (Q := P) end.

Ltac unfocus :=
  lazymatch goal with Q := _ |- _ => subst Q; cbv beta end.

(** Evaluating a property of a log on one path. *)
Ltac on_path := repeat (cbn -[Z.pow]; use_codes).

Ltac scan_apply_paths :=
  unfold ScanApply.AerospikeClient_ScanApply_Invoke;
  lazymatch goal with
  | |- context [ScanApply.body ?w ?a ?b ?c ?d ?e ?f ?g ?h] =>
      focus_on (ScanApply.body w a b c d e f g h)
  end;
  walk eval_scan_apply; unfocus;
  lazymatch goal with
  | |- context [ScanApply.CLEANUP ?w ?st] => focus_on (ScanApply.CLEANUP w st)
  end;
  walk eval_scan_apply; unfocus; cbn [fst snd].

Ltac scan_info_body_paths :=
  lazymatch goal with
  | |- context [ScanInfo.body ?AS ?w ?a ?b ?c ?st] =>
      focus_on (ScanInfo.body AS w a b c st)
  end;
  walk eval_scan_info; unfocus;
  lazymatch goal with
  | |- context [ScanInfo.CLEANUP ?w ?st] => focus_on (ScanInfo.CLEANUP w st)
  end;
  walk eval_scan_info; unfocus; cbn [fst snd].

Ltac scan_info_paths :=
  unfold ScanInfo.AerospikeClient_ScanInfo;
  lazymatch goal with
  | |- context [parse_scan_info ?w ?a ?k] =>
      destruct (parse_scan_info w a k) as [[? ?]|] eqn:?
  end;
  [ scan_info_body_paths | eval_scan_info; cbn [fst snd] ].

(** Membership of an event in an explicit log. *)
Ltac in_log H :=
  repeat (apply elem_of_cons in H; destruct H as [H|H];
          [try discriminate H |]);
  try (apply elem_of_nil in H; destruct H).

(** The order of the policy events on one path. *)
Ltac check_order :=
  on_path;
  split;
  [ by eexists
  | split;
    [ let e := fresh "e" in
      let Hin := fresh "Hin" in
      let Hfail := fresh "Hfail" in
      intros e Hin Hfail; in_log Hin; simplify_eq;
      first [ congruence | on_path; repeat split; done ]
    | try done ] ].

(** Equalities between argument lists on one path. *)
Ltac decide_lists :=
  repeat (case_bool_decide; simplify_eq); cbn.


(** A strictly increasing explicit list of places. *)
Ltac increasing :=
  repeat (apply SSorted_cons; [| repeat constructor; lia]);
  apply SSorted_nil.

(** Every place of an explicit list is below a bound. *)
Ltac all_below :=
  repeat first [constructor; [cbv beta; lia |] | constructor].


(** Walking two calls that share their collaborators: the answers met on
    the first walk are reused on the second. *)
Ltac eval_scan_apply_in_world :=
  eval_scan_apply;
  cbn [validate_policy_scan pyobject_to_policy_scan set_scan_options
       pyobject_to_list error_to_pyobject apply_each_accepts
       aerospike_scan_background uninit_scan].

Ltac use_answers :=
  repeat match goal with
         | H : _ = true |- _ => progress rewrite H
         | H : _ = false |- _ => progress rewrite H
         | H : client_handle _ = _ |- _ => progress rewrite H
         | H : _ = (_, _) |- _ => progress rewrite H
         end.

Ltac walk_again ev :=
  ev; repeat (first [progress use_answers | split_head]; ev).

Ltac scan_apply_paths_again :=
  lazymatch goal with
  | |- context [ScanApply.body ?w ?a ?b ?c ?d ?e ?f ?g ?h] =>
      focus_on (ScanApply.body w a b c d e f g h)
  end;
  walk_again eval_scan_apply_in_world; unfocus;
  lazymatch goal with
  | |- context [ScanApply.CLEANUP ?w ?st] => focus_on (ScanApply.CLEANUP w st)
  end;
  walk_again eval_scan_apply_in_world; unfocus.

Ltac scan_apply_paths_in_world :=
  lazymatch goal with
  | |- context [ScanApply.body ?w ?a ?b ?c ?d ?e ?f ?g ?h] =>
      focus_on (ScanApply.body w a b c d e f g h)
  end;
  walk eval_scan_apply_in_world; unfocus;
  lazymatch goal with
  | |- context [ScanApply.CLEANUP ?w ?st] => focus_on (ScanApply.CLEANUP w st)
  end;
  walk eval_scan_apply_in_world; unfocus.

(** An event of an explicit log. *)
Ltac logged :=
  repeat first [apply list_elem_of_here | apply list_elem_of_further].

(** The verdict of the validator on one path. *)
Ltac failing_call :=
  let H := fresh "H" in
  intros H; first [discriminate H | on_path; repeat split; done].

Ltac check_verdict :=
  on_path;
  let Hpre := fresh "Hpre" in
  intros Hpre;
  first
    [ discriminate Hpre
    | by destruct Hpre
    | split; [logged |];
      split;
      [ failing_call
      | let Hv := fresh "Hv" in
        intros Hv;
        first [discriminate Hv | split; [logged | failing_call]] ] ].

(** ** Preconditions of [scan_apply] *)

Lemma non_sequence_not_list (o : PyObject) :
  is_sequence o = false -> PyList_Check o = false.
Proof. by destruct o. Qed.

(** C6.  The preconditions of a submission are checked in the order client
    handle, NULL names, argument list: the first one violated produces the
    error record, nothing else runs, and the record is reported as it was
    written.  On every path the first failing write to the error record is
    followed by cleanup steps only, among them the single report of that
    record. *)
Theorem scan_apply_first_violation_wins
    (w : world) (self : option AerospikeClient)
    (namespace_p set_p module_p function_p : option string)
    (py_args : PyObject) (py_policy py_options : option PyObject) :
  let run :=
    ScanApply.AerospikeClient_ScanApply_Invoke w self
      namespace_p set_p module_p function_p py_args py_policy py_options in
  (forall msg,
     first_violation self namespace_p set_p module_p function_p py_args
       = Some msg ->
     let e := {| code := AEROSPIKE_ERR_PARAM; message := msg |} in
     run = (None,
            [Ev_as_error_update e; Ev_error_to_pyobject e;
             Ev_PyErr_SetObject (error_to_pyobject w e)])) /\
  first_failure_wins run.2.
Proof.
  intros run. subst run. split.
  - intros msg. unfold first_violation,
      ScanApply.AerospikeClient_ScanApply_Invoke, ScanApply.body.
    destruct (client_handle self) as [as_h|].
    + rewrite bool_decide_eq_false_2 by done.
      destruct namespace_p, set_p, module_p, function_p;
        try (rewrite bool_decide_eq_true_2 by auto;
             intros [= <-]; reflexivity).
      rewrite bool_decide_eq_false_2 by intuition discriminate.
      destruct (PyList_Check py_args); [done |].
      intros [= <-]. reflexivity.
    + rewrite bool_decide_eq_true_2 by done. intros [= <-]. reflexivity.
  - scan_apply_paths; on_path; repeat (split; try done);
      repeat constructor.
Qed.

Lemma scan_apply_first_violation_wins_witness :
  (ScanApply.AerospikeClient_ScanApply_Invoke
     (fake_store 42 fake_snapshot true) fake_client
     None (Some "demo") (Some "mod") (Some "fn") (PyLong 7) None None).1
  = None.
Proof.
  pose proof
    (proj1 (scan_apply_first_violation_wins
              (fake_store 42 fake_snapshot true) fake_client
              None (Some "demo") (Some "mod") (Some "fn") (PyLong 7)
              None None)
       "Parameter should not be null" eq_refl) as H.
  simpl in H. rewrite H. reflexivity.
Defined.

(** C2, as stated, fails: an empty namespace that is present passes the
    NULL test, and the submission reaches the store. *)
Lemma stated_names_checked_fails :
  submission_with_empty_namespace.1 = Some (PyLong 42) /\
  existsb is_network submission_with_empty_namespace.2 = true /\
  ~ stated_names_checked.
Proof.
  split; [reflexivity |]. split; [reflexivity |]. intros H.
  destruct (H (fake_store 42 fake_snapshot true) fake_client
              (Some EmptyString) (Some "demo") (Some "mod") (Some "fn")
              (PyList []) None None) as [[Hnull _] _].
  - left. right. reflexivity.
  - vm_compute in Hnull. discriminate Hnull.
Qed.

(** C2, amended.  A submission in which namespace, set, module or function
    is NULL fails with an [AEROSPIKE_ERR_PARAM] record, reported once, and
    never calls the store; with a valid client handle the message is
    "Parameter should not be null". *)
Theorem scan_apply_null_name_rejected
    (w : world) (self : option AerospikeClient)
    (namespace_p set_p module_p function_p : option string)
    (py_args : PyObject) (py_policy py_options : option PyObject) :
  namespace_p = None \/ set_p = None \/ module_p = None \/ function_p = None ->
  let run :=
    ScanApply.AerospikeClient_ScanApply_Invoke w self
      namespace_p set_p module_p function_p py_args py_policy py_options in
  run.1 = None /\
  existsb is_network run.2 = false /\
  exists e,
    ends_with_report w e run.2 /\
    reported_errors run.2 = [e] /\
    code e = AEROSPIKE_ERR_PARAM /\
    (client_handle self <> None ->
     message e = "Parameter should not be null").
Proof.
  intros Hnull run. subst run.
  unfold ScanApply.AerospikeClient_ScanApply_Invoke, ScanApply.body.
  destruct (client_handle self) as [as_h|].
  - destruct namespace_p, set_p, module_p, function_p;
      try (exfalso; intuition discriminate);
      (split; [reflexivity |]); (split; [reflexivity |]);
      eexists; (split; [by eexists [_] |]); done.
  - split; [reflexivity |]. split; [reflexivity |].
    eexists. split; [by eexists [_] |]. done.
Qed.

Lemma scan_apply_null_name_rejected_witness :
  (ScanApply.AerospikeClient_ScanApply_Invoke
     (fake_store 42 fake_snapshot true) fake_client
     (Some "test") None (Some "mod") (Some "fn") (PyList []) None None).1
  = None.
Proof.
  apply (scan_apply_null_name_rejected
           (fake_store 42 fake_snapshot true) fake_client
           (Some "test") None (Some "mod") (Some "fn") (PyList []) None None).
  right. left. reflexivity.
Defined.

(** C7, as stated, fails: with an invalid client handle the record carries
    the message of the first violated precondition, not "Arguments should
    be a list". *)
Lemma stated_args_checked_fails :
  reported_errors submission_without_client.2 =
    [{| code := AEROSPIKE_ERR_PARAM;
        message := "Invalid aerospike object" |}] /\
  ~ stated_args_checked.
Proof.
  split; [reflexivity |]. intros H.
  destruct (H (fake_store 42 fake_snapshot true) None
              (Some "test") (Some "demo") (Some "mod") (Some "fn")
              (PyDict ∅) None None eq_refl)
    as [[_ (e & Hrep & _ & Hmsg)] _].
  vm_compute in Hrep. injection Hrep as <-.
  vm_compute in Hmsg. discriminate Hmsg.
Qed.

(** C7, amended.  A submission whose argument object is not a sequence
    fails with an [AEROSPIKE_ERR_PARAM] record, reported once, and the
    argument converter never runs; when the client handle is valid and the
    four names are present the message is "Arguments should be a list". *)
Theorem scan_apply_non_sequence_rejected
    (w : world) (self : option AerospikeClient)
    (namespace_p set_p module_p function_p : option string)
    (py_args : PyObject) (py_policy py_options : option PyObject) :
  is_sequence py_args = false ->
  let run :=
    ScanApply.AerospikeClient_ScanApply_Invoke w self
      namespace_p set_p module_p function_p py_args py_policy py_options in
  run.1 = None /\
  existsb is_conversion run.2 = false /\
  exists e,
    ends_with_report w e run.2 /\
    reported_errors run.2 = [e] /\
    code e = AEROSPIKE_ERR_PARAM /\
    (client_handle self <> None /\ namespace_p <> None /\ set_p <> None /\
     module_p <> None /\ function_p <> None ->
     message e = "Arguments should be a list").
Proof.
  intros Hseq run. subst run. apply non_sequence_not_list in Hseq.
  unfold ScanApply.AerospikeClient_ScanApply_Invoke, ScanApply.body.
  rewrite Hseq.
  destruct (client_handle self) as [as_h|].
  - destruct namespace_p, set_p, module_p, function_p;
      (split; [reflexivity |]); (split; [reflexivity |]);
      eexists; (split; [by eexists [_] |]);
      (split; [reflexivity |]); (split; [reflexivity |]);
      try reflexivity; intros (_ & ? & ? & ? & ?); done.
  - split; [reflexivity |]. split; [reflexivity |].
    eexists. split; [by eexists [_] |].
    split; [reflexivity |]. split; [reflexivity |].
    intros [? _]. done.
Qed.

Lemma scan_apply_non_sequence_rejected_witness :
  (ScanApply.AerospikeClient_ScanApply_Invoke
     (fake_store 42 fake_snapshot true) fake_client
     (Some "test") (Some "demo") (Some "mod") (Some "fn")
     (PyLong 7) None None).1
  = None.
Proof.
  apply (scan_apply_non_sequence_rejected
           (fake_store 42 fake_snapshot true) fake_client
           (Some "test") (Some "demo") (Some "mod") (Some "fn")
           (PyLong 7) None None).
  reflexivity.
Defined.

(** ** Outcomes of a call *)






Lemma scan_apply_parsed
    (w : world) (self : option AerospikeClient)
    (args : PyObject) (kwds : option PyObject) (a : scan_apply_args) :
  parse_scan_apply w args kwds = Some a ->
  let run :=
    ScanApply.AerospikeClient_ScanApply_Invoke w self
      (Some (arg_ns a)) (Some (arg_set a))
      (Some (arg_module a)) (Some (arg_function a))
      (arg_args a) (arg_policy a) (arg_options a) in
  ScanApply.AerospikeClient_ScanApply w self args kwds =
  (run.1, Ev_PyArg_ParseTupleAndKeywords true :: run.2).
Proof.
  intros Hparse run. unfold ScanApply.AerospikeClient_ScanApply.
  rewrite Hparse. subst run.
  by destruct (ScanApply.AerospikeClient_ScanApply_Invoke _ _ _ _ _ _ _ _ _).
Qed.














(** ** Policies, resources, identifiers *)

(** C5.  A policy passed to a submission or to a status call is validated
    by [validate_policy_scan] first and converted second, by the same
    sequence in both operations: the policy events of either call are a
    prefix of "validate, convert", and the store is called only after both
    steps.  Past the preconditions the validation always takes place, and
    it is the validator's verdict that decides: the verdict logged is what
    [validate_policy_scan] answers on the untouched error record; a failing
    verdict ends the call with that very record reported, the converter not
    run and the store not called; after a passing verdict the operation's
    converter runs on the record the validator left, and its failure ends
    the call before the store as well. *)
Theorem policy_validated_then_converted
    (offset : Z) (w : world) (self : option AerospikeClient)
    (namespace_p set_p module_p function_p : option string)
    (py_args : PyObject) (py_options : option PyObject)
    (args : PyObject) (kwds : option PyObject)
    (p : PyObject) (lscanId : Z) :
  let apply :=
    ScanApply.AerospikeClient_ScanApply_Invoke w self
      namespace_p set_p module_p function_p py_args (Some p) py_options in
  let info := ScanInfo.AerospikeClient_ScanInfo offset w self args kwds in
  let v := validate_policy_scan w as_error_init p in
  validated_then_converted p apply /\
  (first_violation self namespace_p set_p module_p function_p py_args = None ->
   head (policy_events apply.2) = Some (true, Some p)) /\
  (first_violation self namespace_p set_p module_p function_p py_args = None ->
   validator_decides w p
     (Ev_pyobject_to_policy_scan p (pyobject_to_policy_scan w v p).1)
     (pyobject_to_policy_scan w v p).1 apply) /\
  (parse_scan_info w args kwds = Some (lscanId, Some p) ->
   validated_then_converted p info /\
   (client_handle self <> None ->
    head (policy_events info.2) = Some (true, Some p)) /\
   (client_handle self <> None ->
    validator_decides w p
      (Ev_pyobject_to_policy_info (Some p)
         (pyobject_to_policy_info w v (Some p)).1)
      (pyobject_to_policy_info w v (Some p)).1 info)).
Proof.
  intros apply info v. subst apply info v.
  unfold validated_then_converted, validator_decides, first_violation,
    as_error_init.
  cbv zeta.
  split; [| split; [| split]].
  - scan_apply_paths; check_order.
  - scan_apply_paths; on_path; done.
  - scan_apply_paths; check_verdict.
  - intros Hparse.
    unfold ScanInfo.AerospikeClient_ScanInfo. rewrite Hparse.
    split; [| split].
    + scan_info_body_paths; check_order.
    + scan_info_body_paths; on_path; done.
    + scan_info_body_paths; check_verdict.
Qed.

Lemma policy_validated_then_converted_witness :
  let w := fake_store 42 fake_snapshot true in
  let refused := PyLong 7 in
  let apply :=
    ScanApply.AerospikeClient_ScanApply_Invoke w fake_client
      (Some "test") (Some "demo") (Some "mod") (Some "fn") (PyList [])
      (Some refused) None in
  let info :=
    ScanInfo.AerospikeClient_ScanInfo 100 w fake_client
      (PyTuple [PyLong 42; refused]) None in
  (apply.1 = None /\
   policy_events apply.2 = [(true, Some refused)] /\
   existsb is_network apply.2 = false) /\
  (info.1 = None /\
   policy_events info.2 = [(true, Some refused)] /\
   existsb is_network info.2 = false).
Proof.
  intros w refused apply info.
  destruct (policy_validated_then_converted 100 w fake_client
              (Some "test") (Some "demo") (Some "mod") (Some "fn")
              (PyList []) None (PyTuple [PyLong 42; refused]) None
              refused 42)
    as (_ & _ & Ha & Hi).
  destruct Ha as (_ & Ha & _); [reflexivity |].
  destruct Ha as (Ha1 & _ & Ha2 & Ha3); [reflexivity |].
  destruct Hi as (_ & _ & Hi); [reflexivity |].
  destruct Hi as (_ & Hi & _); [done |].
  destruct Hi as (Hi1 & _ & Hi2 & Hi3); [reflexivity |].
  repeat split; assumption.
Defined.

(** C4.  On every exit path of a submission the descriptor is destroyed as
    many times as it was initialised, which is once if the is-initialised
    flag is set at [CLEANUP] and never otherwise.  No argument list is
    released twice.  The list produced by the conversion is released
    exactly once: through the descriptor, with the local reference cleared,
    after a successful attach; directly by [as_list_destroy] at [CLEANUP]
    otherwise. *)
Theorem scan_apply_releases_once
    (w : world) (self : option AerospikeClient)
    (namespace_p set_p module_p function_p : option string)
    (py_args : PyObject) (py_policy py_options : option PyObject) :
  let st :=
    ScanApply.body w self namespace_p set_p module_p function_p
      py_args py_policy py_options in
  let t :=
    (ScanApply.AerospikeClient_ScanApply_Invoke w self
       namespace_p set_p module_p function_p
       py_args py_policy py_options).2 in
  count releases_scan t = count initialises_scan t /\
  count initialises_scan t =
    (if ScanApply.is_scan_init st then 1 else 0)%nat /\
  (forall l,
     (count (destroys_list_directly l) t +
      count (destroys_list_via_scan l) t <= 1)%nat) /\
  (forall e l,
     Ev_pyobject_to_list py_args e (Some l) ∈ t ->
     if existsb attaches t then
       count (destroys_list_directly l) t = 0%nat /\
       count (destroys_list_via_scan l) t = 1%nat /\
       ScanApply.arglist st = None
     else
       count (destroys_list_directly l) t = 1%nat /\
       count (destroys_list_via_scan l) t = 0%nat).
Proof.
  intros st t. subst st t.
  scan_apply_paths; on_path;
    (split; [reflexivity |]); (split; [reflexivity |]); split.
  all: try (intros l'; unfold attached_arglist; cbn; decide_lists; lia).
  all: intros e' l' Hin; in_log Hin; simplify_eq;
    unfold attached_arglist; cbn; decide_lists; done.
Qed.

Lemma scan_apply_releases_once_witness :
  count (destroys_list_via_scan [])
    (ScanApply.AerospikeClient_ScanApply_Invoke
       (fake_store 42 fake_snapshot true) fake_client
       (Some "test") (Some "demo") (Some "mod") (Some "fn")
       (PyList []) None None).2 = 1%nat.
Proof.
  pose proof
    (scan_apply_releases_once (fake_store 42 fake_snapshot true) fake_client
       (Some "test") (Some "demo") (Some "mod") (Some "fn")
       (PyList []) None None) as (_ & _ & _ & H).
  specialize (H as_error_init []).
  apply H. vm_compute.
  repeat first [apply list_elem_of_here | apply list_elem_of_further].
Defined.




(** An empty tuple is a sequence, yet not a list: it is rejected. *)
Lemma scan_apply_rejects_empty_tuple :
  (ScanApply.AerospikeClient_ScanApply_Invoke
     (fake_store 42 fake_snapshot true) fake_client
     (Some "test") (Some "demo") (Some "mod") (Some "fn")
     (PyTuple []) None None).1 = None.
Proof. reflexivity. Qed.



(** C9.  Two status calls with the same arguments, answered alike by the
    collaborators (in particular by the store, for this job identifier),
    return the same value and leave the same log: the result depends on
    nothing but the arguments and those answers. *)
Theorem scan_info_deterministic
    (offset : Z) (w1 w2 : world) (self : option AerospikeClient)
    (args : PyObject) (kwds : option PyObject) :
  same_answers w1 w2 args kwds ->
  ScanInfo.AerospikeClient_ScanInfo offset w1 self args kwds =
  ScanInfo.AerospikeClient_ScanInfo offset w2 self args kwds.
Proof.
  intros (Hparse & Halloc & Hval & Hconv & Herr & Hstore).
  unfold ScanInfo.AerospikeClient_ScanInfo. rewrite <- Hparse.
  destruct (parse_scan_info w1 args kwds) as [[lscanId py_policy]|] eqn:Hp.
  - specialize (Hstore lscanId py_policy eq_refl).
    focus_on (ScanInfo.body offset w1 self lscanId py_policy
                (ScanInfo.emit (Ev_PyArg_ParseTupleAndKeywords true)
                   (ScanInfo.entry w1))).
    walk eval_scan_info; unfocus.
    all: lazymatch goal with
         | |- context [ScanInfo.CLEANUP ?w ?st] =>
             focus_on (ScanInfo.CLEANUP w st)
         end;
         walk eval_scan_info; unfocus.
    all: rewrite ?Hval, ?Hconv, ?Hstore, ?Herr, ?Halloc in *.
    all: lazymatch goal with
         | |- context [ScanInfo.body ?o ?w ?a ?b ?c ?st] =>
             focus_on (ScanInfo.body o w a b c st)
         end;
         walk eval_scan_info; unfocus.
    all: lazymatch goal with
         | |- context [ScanInfo.CLEANUP ?w ?st] =>
             focus_on (ScanInfo.CLEANUP w st)
         end;
         walk eval_scan_info; unfocus.
    all: reflexivity.
  - eval_scan_info. by rewrite Halloc.
Qed.

Lemma scan_info_deterministic_witness :
  ScanInfo.AerospikeClient_ScanInfo 100
    (fake_store 42 fake_snapshot true) fake_client
    (PyTuple [PyLong 42]) None =
  ScanInfo.AerospikeClient_ScanInfo 100
    (fake_store 43 fake_snapshot true) fake_client
    (PyTuple [PyLong 42]) None.
Proof.
  apply (scan_info_deterministic 100
           (fake_store 42 fake_snapshot true)
           (fake_store 43 fake_snapshot true)
           fake_client (PyTuple [PyLong 42]) None).
  repeat split; reflexivity.
Defined.

(** ** The end-to-end scenario of the specification

    Submitting (test, demo, mod, fn, []) against the fake returns 42; the
    status of job 42, answered (55, 1000, 1) by the fake, comes back as
    (55, 1000, 101) with an offset of 100. *)
Example end_to_end_scenario :
  (ScanApply.AerospikeClient_ScanApply
     (fake_store 42 fake_snapshot true) fake_client
     (PyTuple [PyUnicode "test"; PyUnicode "demo"; PyUnicode "mod";
               PyUnicode "fn"; PyList []]) None).1
  = Some (PyLong 42) /\
  (ScanInfo.AerospikeClient_ScanInfo 100
     (fake_store 42 fake_snapshot true) fake_client
     (PyTuple [PyLong 42]) None).1
  = Some (PyDict {[ PROGRESS_PCT := PyLong 55;
                    RECORDS_SCANNED := PyLong 1000;
                    STATUS := PyLong 101 ]}).
Proof. split; vm_compute; reflexivity. Qed.

(** * Further properties of the two operations *)

(** ** Order and number of the calls *)

(** X1.  A status call, too, lets the first failure win: after the first
    failing write to the error record only its report follows.  With an
    invalid client handle the call allocates, parses, builds the record
    "Invalid aerospike object", reports it and does nothing else. *)
Theorem scan_info_first_failure_wins
    (offset : Z) (w : world) (self : option AerospikeClient)
    (args : PyObject) (kwds : option PyObject) :
  let run := ScanInfo.AerospikeClient_ScanInfo offset w self args kwds in
  first_failure_wins run.2 /\
  (parse_scan_info w args kwds <> None -> client_handle self = None ->
   let e := {| code := AEROSPIKE_ERR_PARAM;
               message := "Invalid aerospike object" |} in
   run = (None,
          [Ev_PyDict_New (PyDict_New_allocates w);
           Ev_PyArg_ParseTupleAndKeywords true;
           Ev_as_error_update e; Ev_error_to_pyobject e;
           Ev_PyErr_SetObject (error_to_pyobject w e)])).
Proof.
  intros run. subst run. split.
  - scan_info_paths; on_path; repeat (split; try done); repeat constructor.
  - intros Hparse Hclient. unfold ScanInfo.AerospikeClient_ScanInfo.
    destruct (parse_scan_info w args kwds) as [[lscanId py_policy]|];
      [| done].
    unfold ScanInfo.body. rewrite Hclient. reflexivity.
Qed.

Lemma scan_info_first_failure_wins_witness :
  (ScanInfo.AerospikeClient_ScanInfo 100
     (fake_store 42 fake_snapshot true) None (PyTuple [PyLong 42]) None).1
  = None.
Proof.
  pose proof
    (proj2 (scan_info_first_failure_wins 100
              (fake_store 42 fake_snapshot true) None
              (PyTuple [PyLong 42]) None)) as H.
  simpl in H. rewrite H; [reflexivity | discriminate | reflexivity].
Defined.

(** X2.  The calls of a submission follow the order of the source and each
    is made at most once: parse, initialise, validate, convert, options,
    list conversion, attach, store, local error, list release, descriptor
    release, report.  A submission makes none of the calls that belong to
    the status operation, and calls the store at most once. *)
Theorem scan_apply_program_order
    (w : world) (self : option AerospikeClient)
    (args : PyObject) (kwds : option PyObject) :
  let t := (ScanApply.AerospikeClient_ScanApply w self args kwds).2 in
  StronglySorted Nat.lt (submission_place <$> t) /\
  Forall (fun n => (n < 13)%nat) (submission_place <$> t) /\
  (count is_network t <= 1)%nat.
Proof.
  intros t. subst t.
  destruct (parse_scan_apply w args kwds) as [a|] eqn:Hparse.
  - rewrite (scan_apply_parsed _ _ _ _ _ Hparse). cbn [fst snd].
    scan_apply_paths; on_path;
      (split; [increasing | split; [all_below | lia]]).
  - unfold ScanApply.AerospikeClient_ScanApply. rewrite Hparse. cbn.
    split; [increasing | split; [all_below | lia]].
Qed.

(** X3.  The calls of a status query follow the order of the source and
    each is made at most once: allocate, parse, validate, convert, query,
    local error, report.  A status query never initialises, fills or
    releases a descriptor, and asks the store at most once. *)
Theorem scan_info_program_order
    (offset : Z) (w : world) (self : option AerospikeClient)
    (args : PyObject) (kwds : option PyObject) :
  let t := (ScanInfo.AerospikeClient_ScanInfo offset w self args kwds).2 in
  StronglySorted Nat.lt (status_place <$> t) /\
  Forall (fun n => (n < 8)%nat) (status_place <$> t) /\
  (count is_network t <= 1)%nat.
Proof.
  intros t. subst t.
  scan_info_paths; on_path;
    (split; [increasing | split; [all_below | lia]]).
Qed.

(** ** What the store receives *)








(** ** Failures *)



(** X8.  Without a policy a submission runs neither validator nor
    converter.  A status call without a policy skips the validator but
    still runs the converter, on NULL; if that conversion fails the call
    returns NULL, reports the converter's record and never asks the
    store. *)
Theorem absent_policy_behaviour
    (offset : Z) (w : world) (self : option AerospikeClient)
    (namespace_p set_p module_p function_p : option string)
    (py_args : PyObject) (py_options : option PyObject)
    (args : PyObject) (kwds : option PyObject) (lscanId : Z) :
  let submit :=
    ScanApply.AerospikeClient_ScanApply_Invoke w self
      namespace_p set_p module_p function_p py_args None py_options in
  let poll := ScanInfo.AerospikeClient_ScanInfo offset w self args kwds in
  let converted := (pyobject_to_policy_info w as_error_init None).1 in
  policy_events submit.2 = [] /\
  (parse_scan_info w args kwds = Some (lscanId, None) ->
   client_handle self <> None ->
   policy_events poll.2 = [(false, None)] /\
   (is_ok (code converted) = false ->
    poll.1 = None /\
    reported_errors poll.2 = [converted] /\
    existsb is_network poll.2 = false)).
Proof.
  intros submit poll converted. subst submit poll converted. split.
  - scan_apply_paths; reflexivity.
  - intros Hparse Hclient. unfold ScanInfo.AerospikeClient_ScanInfo.
    rewrite Hparse. unfold as_error_init.
    scan_info_body_paths; try (exfalso; congruence);
      (split; [reflexivity |]); cbn [fst]; intros Hfail;
      first [congruence | done].
Qed.

Lemma absent_policy_behaviour_witness :
  policy_events
    (ScanInfo.AerospikeClient_ScanInfo 100
       (fake_store 42 fake_snapshot true) fake_client
       (PyTuple [PyLong 42]) None).2 = [(false, None)].
Proof.
  apply (absent_policy_behaviour 100 (fake_store 42 fake_snapshot true)
           fake_client None None None None Py_None None
           (PyTuple [PyLong 42]) None 42).
  - reflexivity.
  - discriminate.
Defined.

(** X9.  When the client library refuses the directive, the submission
    returns NULL with the record (AEROSPIKE_ERR_PARAM, "Unable to apply UDF
    on the scan"), never calls the store, destroys the descriptor once and
    destroys the converted list itself, the descriptor holding none. *)
Theorem scan_apply_attach_refused
    (w : world) (self : option AerospikeClient)
    (namespace_p set_p module_p function_p : option string)
    (py_args : PyObject) (py_policy py_options : option PyObject)
    (m f : string) (l : option as_list) :
  let run :=
    ScanApply.AerospikeClient_ScanApply_Invoke w self
      namespace_p set_p module_p function_p py_args py_policy py_options in
  Ev_as_scan_apply_each m f l false ∈ run.2 ->
  run.1 = None /\
  reported_errors run.2 =
    [{| code := AEROSPIKE_ERR_PARAM;
        message := "Unable to apply UDF on the scan" |}] /\
  existsb is_network run.2 = false /\
  count releases_scan run.2 = 1%nat /\
  (forall l', l = Some l' ->
              count (destroys_list_directly l') run.2 = 1%nat /\
              count (destroys_list_via_scan l') run.2 = 0%nat).
Proof.
  intros run. subst run.
  scan_apply_paths; intros Hin; in_log Hin; simplify_eq;
    (split; [reflexivity |]); (split; [reflexivity |]);
    (split; [reflexivity |]); (split; [reflexivity |]);
    intros l' Hl; simplify_eq; unfold attached_arglist; cbn;
    decide_lists; done.
Qed.

Lemma scan_apply_attach_refused_witness :
  (ScanApply.AerospikeClient_ScanApply_Invoke fake_store_refusing
     fake_client (Some "test") (Some "demo") (Some "mod") (Some "fn")
     (PyList []) None None).1 = None.
Proof.
  apply (scan_apply_attach_refused fake_store_refusing fake_client
           (Some "test") (Some "demo") (Some "mod") (Some "fn")
           (PyList []) None None "mod" "fn" (Some [])).
  vm_compute.
  repeat first [apply list_elem_of_here | apply list_elem_of_further].
Defined.

(** X10.  Through the public entry point the four names are never NULL:
    every error record the submission builds itself is an
    AEROSPIKE_ERR_PARAM with one of the messages "Invalid aerospike
    object", "Arguments should be a list", "Unable to apply UDF on the
    scan"; "Parameter should not be null" cannot occur. *)
Theorem scan_apply_public_names_present
    (w : world) (self : option AerospikeClient)
    (args : PyObject) (kwds : option PyObject) (e : as_error) :
  Ev_as_error_update e
    ∈ (ScanApply.AerospikeClient_ScanApply w self args kwds).2 ->
  code e = AEROSPIKE_ERR_PARAM /\
  (message e = "Invalid aerospike object" \/
   message e = "Arguments should be a list" \/
   message e = "Unable to apply UDF on the scan").
Proof.
  destruct (parse_scan_apply w args kwds) as [a|] eqn:Hparse.
  - rewrite (scan_apply_parsed _ _ _ _ _ Hparse). cbn [fst snd].
    scan_apply_paths; intros Hin; in_log Hin; simplify_eq; cbn; auto.
  - unfold ScanApply.AerospikeClient_ScanApply. rewrite Hparse.
    intros Hin. in_log Hin.
Qed.

Lemma scan_apply_public_names_present_witness :
  code {| code := AEROSPIKE_ERR_PARAM;
          message := "Invalid aerospike object" |} = AEROSPIKE_ERR_PARAM.
Proof.
  apply (scan_apply_public_names_present
           (fake_store 42 fake_snapshot true) None
           (PyTuple [PyUnicode "test"; PyUnicode "demo"; PyUnicode "mod";
                     PyUnicode "fn"; PyList []]) None).
  vm_compute.
  repeat first [apply list_elem_of_here | apply list_elem_of_further].
Defined.

(** ** Uninitialised storage *)

(** X11.  A submission never reads its descriptor before initialising it:
    two environments with the same collaborators return the same value and
    leave the same log whatever the automatic variables held on entry. *)
Theorem scan_apply_ignores_uninitialised
    (w1 w2 : world) (self : option AerospikeClient)
    (namespace_p set_p module_p function_p : option string)
    (py_args : PyObject) (py_policy py_options : option PyObject) :
  same_collaborators w1 w2 ->
  ScanApply.AerospikeClient_ScanApply_Invoke w1 self
    namespace_p set_p module_p function_p py_args py_policy py_options =
  ScanApply.AerospikeClient_ScanApply_Invoke w2 self
    namespace_p set_p module_p function_p py_args py_policy py_options.
Proof.
  unfold same_collaborators.
  destruct w1, w2. cbn. intros (-> & -> & -> & -> & -> & -> & ->).
  unfold ScanApply.AerospikeClient_ScanApply_Invoke.
  scan_apply_paths_in_world.
  all: scan_apply_paths_again.
  all: reflexivity.
Qed.

Lemma scan_apply_ignores_uninitialised_witness :
  ScanApply.AerospikeClient_ScanApply_Invoke
    (fake_store 42 fake_snapshot true) fake_client
    (Some "test") (Some "demo") (Some "mod") (Some "fn") (PyLong 7)
    None None =
  ScanApply.AerospikeClient_ScanApply_Invoke
    (fake_store_with_garbage (as_scan_init "junk" "junk")) fake_client
    (Some "test") (Some "demo") (Some "mod") (Some "fn") (PyLong 7)
    None None.
Proof.
  apply (scan_apply_ignores_uninitialised
           (fake_store 42 fake_snapshot true)
           (fake_store_with_garbage (as_scan_init "junk" "junk"))).
  repeat split; reflexivity.
Defined.
